(** * Sphinx configuration of the "Julia for HPC" lesson (content/conf.py)

    A shallow embedding of [content/conf.py].  The file is a Python module
    that the documentation builder executes in a fresh namespace; the
    embedding runs its statements, in source order, in a small
    state-and-exception monad over the module namespace, [os.environ],
    [sys.path] and the builder's application object. *)

From Stdlib Require Import String List.
From stdpp Require Import gmap strings list fin_maps.
Import ListNotations.
Open Scope string_scope.

(** ** Python values *)

(** The objects the module creates or names.  Objects that belong to the
    standard library or to Sphinx (modules, imported functions, the base
    directive class) are opaque and known by their qualified name. *)
#[warnings="-register-all"]
Inductive value : Type :=
| VStr (s : string)
| VBool (b : bool)
| VList (items : list value)
| VTuple (items : list value)
| VDict (entries : list (string * value))
| VClass (name : string) (base : value) (body : list (string * value))
| VFunction (name : string)
| VExtern (qualname : string).

(** Truth value of an object, as the operator [or] tests it. *)
Definition truthy (v : value) : bool :=
  match v with
  | VStr s => negb (String.eqb s "")
  | VBool b => b
  | VList items | VTuple items => negb (Nat.eqb (length items) 0)
  | VDict entries => negb (Nat.eqb (length entries) 0)
  | VClass _ _ _ | VFunction _ | VExtern _ => true
  end.

(** [d[k]] on a dict display (first entry with that key). *)
Fixpoint dict_get (entries : list (string * value)) (k : string) : option value :=
  match entries with
  | [] => None
  | (k', v) :: rest => if String.eqb k' k then Some v else dict_get rest k
  end.

(** An attribute defined in the body of a class. *)
Definition class_attr (c : value) (a : string) : option value :=
  match c with
  | VClass _ _ body => dict_get body a
  | _ => None
  end.

Definition str_items (v : value) : option (list string) :=
  match v with
  | VList items =>
      foldr (fun x acc =>
               match x, acc with
               | VStr s, Some l => Some (s :: l)
               | _, _ => None
               end) (Some []) items
  | _ => None
  end.

(** The [extra_classes] list of a directive class. *)
Definition extra_classes (c : value) : option (list string) :=
  match class_attr c "extra_classes" with
  | Some v => str_items v
  | None => None
  end.

(** The same tags as a set. *)
Definition tag_set (c : value) : gset string :=
  match extra_classes c with
  | Some l => list_to_set l
  | None => ∅
  end.

(** ** Machine state *)

(** The registries of the Sphinx application object that a [setup] hook
    can fill through [add_css_file] and [add_js_file]. *)
Record sphinx_app := SphinxApp {
  css_files : list string;
  js_files : list value
}.

Record state := State {
  globals : gmap string value;   (* namespace of the module *)
  environ : gmap string string;  (* os.environ *)
  sys_path : list string;        (* sys.path *)
  app : sphinx_app               (* the builder's application *)
}.

(** Observable steps of an execution, in the order they happen. *)
Inductive effect : Type :=
| Bind (name : string)              (* a global name is (re)bound *)
| EnvGet (key : string)             (* os.environ is consulted *)
| PathInsert (index : nat) (entry : string)
| AddCssFile (filename : string).

(** Whether a step binds the global [x]. *)
Definition binds (x : string) (e : effect) : bool :=
  match e with
  | Bind y => String.eqb x y
  | _ => false
  end.

(** How often a run binds the global [x]. *)
Definition times_bound (x : string) (t : list effect) : nat :=
  length (List.filter (binds x) t).

(** The keys for which a run consults [os.environ], in order. *)
Definition env_reads (t : list effect) : list string :=
  flat_map (fun e => match e with EnvGet k => [k] | _ => [] end) t.

Inductive exn : Type :=
| NameError (name : string)
| TypeError (what : string).

Inductive result (A : Type) : Type :=
| Ok (a : A)
| Raise (e : exn).
Arguments Ok {A} a.
Arguments Raise {A} e.

(** A computation returns a value, the new state and the effects it
    performed, or raises. *)
Definition M (A : Type) : Type := state -> result (A * state * list effect).

Definition ret {A} (a : A) : M A := fun s => Ok (a, s, []).

Definition bind {A B} (m : M A) (k : A -> M B) : M B :=
  fun s =>
    match m s with
    | Ok (a, s1, t1) =>
        match k a s1 with
        | Ok (b, s2, t2) => Ok (b, s2, (t1 ++ t2)%list)
        | Raise e => Raise e
        end
    | Raise e => Raise e
    end.

Definition raise {A} (e : exn) : M A := fun _ => Raise e.

Notation "'let*' x ':=' m 'in' k" := (bind m (fun x => k))
  (at level 10, x name, m at level 100, k at level 200).
Notation "m ';;;' k" := (bind m (fun _ => k))
  (at level 100, k at level 200, right associativity).

(** ** Statements and expressions *)

(** Reading a global name. *)
Definition name (x : string) : M value :=
  fun s =>
    match globals s !! x with
    | Some v => Ok (v, s, [])
    | None => Raise (NameError x)
    end.

(** [x = v] at module level. *)
Definition assign (x : string) (v : value) : M unit :=
  fun s =>
    Ok (tt,
        {| globals := <[x := v]> (globals s); environ := environ s;
           sys_path := sys_path s; app := app s |},
        [Bind x]).

(** [import m] *)
Definition import_ (m : string) : M unit := assign m (VExtern m).

(** [from m import n1, n2, ...] *)
Fixpoint from_import (m : string) (names : list string) : M unit :=
  match names with
  | [] => ret tt
  | n :: rest => assign n (VExtern (m +:+ "." +:+ n)) ;;; from_import m rest
  end.

(** [class c(base): body] *)
Definition class_ (c base : string) (body : list (string * value)) : M unit :=
  let* b := name base in assign c (VClass c b body).

(** [def f(...): ...] binds the function object. *)
Definition def (f : string) : M unit := assign f (VFunction f).

(** [a or b]: [b] is evaluated only when [a] is false. *)
Definition py_or (a b : M value) : M value :=
  let* x := a in if truthy x then ret x else b.

Definition as_str (v : value) : M string :=
  match v with
  | VStr p => ret p
  | _ => raise (TypeError "expected str")
  end.

(** [env.get(key, default)] on a mapping of strings. *)
Definition mapping_get (env : gmap string string) (key default : string)
  : string :=
  match env !! key with
  | Some v => v
  | None => default
  end.

(** [os.environ.get(key, default)] *)
Definition os_environ_get (key default : string) : M string :=
  name "os" ;;;
  fun s => Ok (mapping_get (environ s) key default, s, [EnvGet key]).

(** [sys.path.insert(0, entry)] *)
Definition sys_path_insert0 (entry : M string) : M unit :=
  name "sys" ;;;
  let* e := entry in
  fun s =>
    Ok (tt,
        {| globals := globals s; environ := environ s;
           sys_path := e :: sys_path s; app := app s |},
        [PathInsert 0 e]).

(** [app.add_css_file(filename)] *)
Definition add_css_file (filename : string) : M unit :=
  fun s =>
    Ok (tt,
        {| globals := globals s; environ := environ s; sys_path := sys_path s;
           app := {| css_files := (css_files (app s) ++ [filename])%list;
                     js_files := js_files (app s) |} |},
        [AddCssFile filename]).

(** The script entry of [html_js_files]: a URL with its tag attributes.
    The second attribute value is written ["\<newline>defer"] in the
    source; a backslash before a line end inside a string literal joins
    the lines, so the value is ["defer"]. *)
Definition plausible_script : value :=
  VTuple [VStr "https://plausible.io/js/script.js";
          VDict [("data-domain", VStr "enccs.github.io/julia-for-hpc");
                 ("defer", VStr "defer")]].

(** A builder about to read its configuration: nothing loaded, nothing
    registered, and the given process environment. *)
Definition builder_state (env : gmap string string) : state :=
  {| globals := ∅; environ := env; sys_path := [];
     app := {| css_files := []; js_files := [] |} |}.

(** A namespace that holds project information of its own and the path
    of the file, before the HTML options run. *)
Definition metadata_state (repo : string) : state :=
  {| globals :=
       list_to_map
         [("__file__", VStr "/lesson/content/conf.py");
          ("project", VStr "A lesson");
          ("github_user", VStr "someone");
          ("github_repo_name", VStr repo);
          ("github_version", VStr "main");
          ("conf_py_path", VStr "/docs/")];
     environ := ∅; sys_path := [];
     app := {| css_files := []; js_files := [] |} |}.

Section Conf.

(** The functions of [os.path] depend on the file system and on the
    working directory; they are left abstract. *)
Context (abspath realpath dirname basename : string -> string).

Definition os_path_abspath (p : string) : M string :=
  name "os" ;;; ret (abspath p).

(** [basename(dirname(realpath(__file__)))] *)
Definition dirname_of_file : M value :=
  name "basename" ;;; name "dirname" ;;; name "realpath" ;;;
  let* f := name "__file__" in
  let* p := as_str f in
  ret (VStr (basename (dirname (realpath p)))).

(** *** The module, section by section *)

Definition path_setup : M unit :=
  import_ "os" ;;;
  import_ "sys" ;;;
  sys_path_insert0 (os_path_abspath ".").

Definition project_information : M unit :=
  assign "project" (VStr "Julia for High-Performance Scientific Computing") ;;;
  assign "copyright" (VStr "2022, EuroCC National Competence Center Sweden") ;;;
  assign "author" (VStr "Kjartan Thor Wikfeldt") ;;;
  assign "github_user" (VStr "enccs") ;;;
  assign "github_repo_name" (VStr "Julia-for-HPC") ;;;
  assign "github_version" (VStr "master") ;;;
  assign "conf_py_path" (VStr "/content/").

Definition general_configuration : M unit :=
  assign "extensions"
    (VList [VStr "sphinx.ext.githubpages"; VStr "sphinx_lesson";
            VStr "sphinx.ext.todo"]) ;;;
  assign "jupyter_execute_notebooks" (VStr "cache") ;;;
  assign "exclude_patterns"
    (VList [VStr "code*"; VStr "README*"; VStr "_build"; VStr "Thumbs.db";
            VStr ".DS_Store"; VStr "jupyter_execute"; VStr "*venv*"]).

Definition html_output : M unit :=
  assign "html_theme" (VStr "sphinx_rtd_theme") ;;;
  assign "html_logo" (VStr "img/ENCCS.jpg") ;;;
  assign "html_favicon" (VStr "img/favicon.ico") ;;;
  (let* p := name "project" in assign "html_title" p) ;;;
  assign "html_static_path" (VList [VStr "css"]) ;;;
  from_import "os.path" ["dirname"; "realpath"; "basename"] ;;;
  (let* user := name "github_user" in
   let* repo := py_or (name "github_repo_name") dirname_of_file in
   let* version := name "github_version" in
   let* path := name "conf_py_path" in
   assign "html_context"
     (VDict [("display_github", VBool true);
             ("github_user", user);
             ("github_repo", repo);
             ("github_version", version);
             ("conf_py_path", path)])) ;;;
  assign "todo_include_todos" (VBool true).

Definition directives : M unit :=
  from_import "sphinx_lesson.directives" ["_BaseCRDirective"] ;;;
  class_ "TypealongDirective" "_BaseCRDirective"
    [("extra_classes", VList [VStr "toggle-shown"; VStr "dropdown"])] ;;;
  class_ "ParametersDirective" "_BaseCRDirective"
    [("extra_classes", VList [VStr "dropdown"])] ;;;
  class_ "DemoDirective" "_BaseCRDirective"
    [("extra_classes", VList [VStr "toggle-shown"; VStr "dropdown"])] ;;;
  (let* t := name "TypealongDirective" in
   let* p := name "ParametersDirective" in
   let* d := name "DemoDirective" in
   assign "DIRECTIVES" (VList [t; p; d])).

(** The body of [setup(app)], where [app] is the application of the
    state; the registration of the directives is commented out in the
    source. *)
Definition setup : M unit :=
  add_css_file "overrides.css".

Definition analytics : M unit :=
  import_ "os" ;;;
  let* ref := os_environ_get "GITHUB_REF" "" in
  if String.eqb ref "refs/heads/main"
  then assign "html_js_files" (VList [plausible_script])
  else ret tt.

(** Everything above the last [import os]. *)
Definition settings : M unit :=
  path_setup ;;;
  project_information ;;;
  general_configuration ;;;
  html_output ;;;
  directives ;;;
  def "setup".

Definition conf_py : M unit :=
  settings ;;; analytics.

(** The builder executes the file in a namespace of its own that holds
    the path of the file under [__file__]. *)
Definition new_namespace (file : string) : M unit :=
  fun s =>
    Ok (tt,
        {| globals := {[ "__file__" := VStr file ]}; environ := environ s;
           sys_path := sys_path s; app := app s |},
        []).

Definition load (file : string) : M unit :=
  new_namespace file ;;; conf_py.

(** ** What a load leaves behind *)

(** The namespace after [settings], as a table in source order. *)
Definition settings_globals (file : string) : gmap string value :=
  let base := VExtern "sphinx_lesson.directives._BaseCRDirective" in
  let typealong :=
    VClass "TypealongDirective" base
      [("extra_classes", VList [VStr "toggle-shown"; VStr "dropdown"])] in
  let parameters :=
    VClass "ParametersDirective" base
      [("extra_classes", VList [VStr "dropdown"])] in
  let demo :=
    VClass "DemoDirective" base
      [("extra_classes", VList [VStr "toggle-shown"; VStr "dropdown"])] in
  list_to_map
    [("__file__", VStr file);
     ("os", VExtern "os");
     ("sys", VExtern "sys");
     ("project", VStr "Julia for High-Performance Scientific Computing");
     ("copyright", VStr "2022, EuroCC National Competence Center Sweden");
     ("author", VStr "Kjartan Thor Wikfeldt");
     ("github_user", VStr "enccs");
     ("github_repo_name", VStr "Julia-for-HPC");
     ("github_version", VStr "master");
     ("conf_py_path", VStr "/content/");
     ("extensions",
      VList [VStr "sphinx.ext.githubpages"; VStr "sphinx_lesson";
             VStr "sphinx.ext.todo"]);
     ("jupyter_execute_notebooks", VStr "cache");
     ("exclude_patterns",
      VList [VStr "code*"; VStr "README*"; VStr "_build"; VStr "Thumbs.db";
             VStr ".DS_Store"; VStr "jupyter_execute"; VStr "*venv*"]);
     ("html_theme", VStr "sphinx_rtd_theme");
     ("html_logo", VStr "img/ENCCS.jpg");
     ("html_favicon", VStr "img/favicon.ico");
     ("html_title", VStr "Julia for High-Performance Scientific Computing");
     ("html_static_path", VList [VStr "css"]);
     ("dirname", VExtern "os.path.dirname");
     ("realpath", VExtern "os.path.realpath");
     ("basename", VExtern "os.path.basename");
     ("html_context",
      VDict [("display_github", VBool true);
             ("github_user", VStr "enccs");
             ("github_repo", VStr "Julia-for-HPC");
             ("github_version", VStr "master");
             ("conf_py_path", VStr "/content/")]);
     ("todo_include_todos", VBool true);
     ("_BaseCRDirective", base);
     ("TypealongDirective", typealong);
     ("ParametersDirective", parameters);
     ("DemoDirective", demo);
     ("DIRECTIVES", VList [typealong; parameters; demo]);
     ("setup", VFunction "setup")].

(** The effects of [settings], in order. *)
Definition settings_effects : list effect :=
  [Bind "os"; Bind "sys"; PathInsert 0 (abspath ".")] ++
  map Bind
    ["project"; "copyright"; "author"; "github_user"; "github_repo_name";
     "github_version"; "conf_py_path"; "extensions";
     "jupyter_execute_notebooks"; "exclude_patterns"; "html_theme";
     "html_logo"; "html_favicon"; "html_title"; "html_static_path";
     "dirname"; "realpath"; "basename"; "html_context";
     "todo_include_todos"; "_BaseCRDirective"; "TypealongDirective";
     "ParametersDirective"; "DemoDirective"; "DIRECTIVES"; "setup"].

(** The test of the last statement, on an environment. *)
Definition on_main (env : gmap string string) : bool :=
  String.eqb (mapping_get env "GITHUB_REF" "") "refs/heads/main".

Definition loaded_globals (file : string) (env : gmap string string)
  : gmap string value :=
  if on_main env
  then <["html_js_files" := VList [plausible_script]]> (settings_globals file)
  else settings_globals file.

Definition loaded_effects (env : gmap string string) : list effect :=
  settings_effects ++ [Bind "os"; EnvGet "GITHUB_REF"] ++
  (if on_main env then [Bind "html_js_files"] else []).


(** [n] loads of the file in one process, one after the other. *)
Fixpoint loads (n : nat) (file : string) : M unit :=
  match n with
  | 0 => ret tt
  | S k => load file ;;; loads k file
  end.

(** ** Running the module *)

Lemma settings_run file env path a :
  settings {| globals := {[ "__file__" := VStr file ]}; environ := env;
              sys_path := path; app := a |}
  = Ok (tt,
        {| globals := settings_globals file; environ := env;
           sys_path := abspath "." :: path; app := a |},
        settings_effects).
Proof. vm_compute. reflexivity. Qed.

Lemma load_run file s :
  load file s
  = Ok (tt,
        {| globals := loaded_globals file (environ s); environ := environ s;
           sys_path := abspath "." :: sys_path s; app := app s |},
        loaded_effects (environ s)).
Proof.
  destruct s as [g env path a].
  unfold load, conf_py, bind at 1 2. cbn [new_namespace environ sys_path app].
  rewrite settings_run.
  unfold loaded_globals, loaded_effects, on_main, analytics, os_environ_get,
    import_, assign, bind, name. cbn [globals environ sys_path app].
  rewrite lookup_insert_eq. cbn [globals environ sys_path app].
  destruct (String.eqb (mapping_get env "GITHUB_REF" "") "refs/heads/main");
    vm_compute; reflexivity.
Qed.

Lemma on_main_true env :
  on_main env = true <-> env !! "GITHUB_REF" = Some "refs/heads/main".
Proof.
  unfold on_main, mapping_get.
  destruct (env !! "GITHUB_REF") as [r|].
  - rewrite String.eqb_eq. split; congruence.
  - cbn. split; discriminate.
Qed.

Lemma on_main_false env :
  on_main env = false <-> env !! "GITHUB_REF" <> Some "refs/heads/main".
Proof.
  rewrite <- on_main_true. destruct (on_main env); split; congruence.
Qed.

(** The bindings of [settings] survive the last statement. *)
Lemma loaded_settings file env x :
  x <> "html_js_files" ->
  loaded_globals file env !! x = settings_globals file !! x.
Proof.
  intros Hx. unfold loaded_globals.
  destruct (on_main env); [|reflexivity].
  rewrite lookup_insert_ne; [reflexivity | congruence].
Qed.

Lemma loaded_js_files file env :
  loaded_globals file env !! "html_js_files"
  = if on_main env then Some (VList [plausible_script]) else None.
Proof.
  unfold loaded_globals. destruct (on_main env).
  - apply lookup_insert_eq.
  - vm_compute. reflexivity.
Qed.

Ltac settings_lookup :=
  rewrite loaded_settings by discriminate; vm_compute; reflexivity.

(** [a or b] does not run [b] when [a] is true. *)
Lemma py_or_short_circuit (a b : M value) s v s1 t :
  a s = Ok (v, s1, t) -> truthy v = true -> py_or a b s = Ok (v, s1, t).
Proof.
  intros Ha Hv. unfold py_or, bind. rewrite Ha, Hv. cbn.
  rewrite app_nil_r. reflexivity.
Qed.

(** ** The analytics script *)

(** C1: when GITHUB_REF is unset, or set to anything but
    'refs/heads/main', the load succeeds and leaves no [html_js_files]
    in the configuration. *)
Theorem no_script_off_main file s :
  environ s !! "GITHUB_REF" = None \/
  (exists r, environ s !! "GITHUB_REF" = Some r /\ r <> "refs/heads/main") ->
  exists s' t,
    load file s = Ok (tt, s', t) /\
    globals s' !! "html_js_files" = None.
Proof.
  intros Href. rewrite load_run. eexists _, _. split; [reflexivity|].
  cbn [globals]. rewrite loaded_js_files.
  replace (on_main (environ s)) with false; [reflexivity|].
  symmetry. apply on_main_false.
  destruct Href as [-> | (r & -> & Hr)]; congruence.
Qed.

(** C2: when GITHUB_REF is exactly 'refs/heads/main', the load succeeds
    and [html_js_files] holds the one script reference, whose attributes
    are exactly data-domain = 'enccs.github.io/julia-for-hpc' and
    defer = 'defer'. *)
Theorem script_on_main file s :
  environ s !! "GITHUB_REF" = Some "refs/heads/main" ->
  exists s' t,
    load file s = Ok (tt, s', t) /\
    globals s' !! "html_js_files"
    = Some (VList
              [VTuple
                 [VStr "https://plausible.io/js/script.js";
                  VDict [("data-domain", VStr "enccs.github.io/julia-for-hpc");
                         ("defer", VStr "defer")]]]).
Proof.
  intros Href. rewrite load_run. eexists _, _. split; [reflexivity|].
  cbn [globals]. rewrite loaded_js_files.
  apply on_main_true in Href. rewrite Href. reflexivity.
Qed.

(** C9: with GITHUB_REF absent the lookup yields the default, the empty
    string, the load completes without raising, and [html_js_files] is
    not a name of the loaded configuration. *)
Theorem absent_ref_loads file s :
  environ s !! "GITHUB_REF" = None ->
  mapping_get (environ s) "GITHUB_REF" "" = "" /\
  exists s' t,
    load file s = Ok (tt, s', t) /\
    In (EnvGet "GITHUB_REF") t /\
    globals s' !! "html_js_files" = None.
Proof.
  intros Href. split.
  - unfold mapping_get. rewrite Href. reflexivity.
  - rewrite load_run. eexists _, _. split; [reflexivity|].
    assert (Hoff : on_main (environ s) = false)
      by (apply on_main_false; congruence).
    split.
    + unfold loaded_effects. rewrite !in_app_iff. right. cbn. tauto.
    + cbn [globals]. rewrite loaded_js_files, Hoff. reflexivity.
Qed.

(** ** Static values *)

(** C6: after a load the metadata are the strings of the source, the HTML
    title is the project name, and each of these names is bound exactly
    once during the load. *)
Theorem metadata_values file s :
  exists s' t,
    load file s = Ok (tt, s', t) /\
    globals s' !! "project"
    = Some (VStr "Julia for High-Performance Scientific Computing") /\
    globals s' !! "author" = Some (VStr "Kjartan Thor Wikfeldt") /\
    globals s' !! "copyright"
    = Some (VStr "2022, EuroCC National Competence Center Sweden") /\
    globals s' !! "github_user" = Some (VStr "enccs") /\
    globals s' !! "github_repo_name" = Some (VStr "Julia-for-HPC") /\
    globals s' !! "github_version" = Some (VStr "master") /\
    globals s' !! "html_title" = globals s' !! "project" /\
    Forall (fun x => times_bound x t = 1)
      ["project"; "author"; "copyright"; "github_user"; "github_repo_name";
       "github_version"; "html_title"].
Proof.
  rewrite load_run. eexists _, _. split; [reflexivity|]. cbn [globals].
  do 6 (split; [settings_lookup|]).
  split; [rewrite !loaded_settings by discriminate; vm_compute; reflexivity|].
  unfold times_bound, loaded_effects.
  destruct (on_main (environ s));
    repeat (constructor; [vm_compute; reflexivity|]); constructor.
Qed.

(** C8: [github_repo_name] is the non-empty 'Julia-for-HPC', so the
    operator [or] yields it and the directory of the file is not looked
    at: whatever the path of the file and whatever [os.path] computes,
    [html_context['github_repo']] is 'Julia-for-HPC', and the [or]
    gives that string whatever its right operand would do. *)
Theorem github_repo_is_constant file s :
  exists s' t ctx,
    load file s = Ok (tt, s', t) /\
    globals s' !! "html_context" = Some (VDict ctx) /\
    dict_get ctx "github_repo" = Some (VStr "Julia-for-HPC") /\
    globals s' !! "github_repo_name" = Some (VStr "Julia-for-HPC") /\
    truthy (VStr "Julia-for-HPC") = true /\
    (forall fallback : M value,
       py_or (name "github_repo_name") fallback s'
       = Ok (VStr "Julia-for-HPC", s', [])).
Proof.
  assert (Hname : loaded_globals file (environ s) !! "github_repo_name"
                  = Some (VStr "Julia-for-HPC")) by settings_lookup.
  rewrite load_run. eexists _, _, _. split; [reflexivity|]. cbn [globals].
  split; [settings_lookup|].
  split; [reflexivity|].
  split; [exact Hname|].
  split; [reflexivity|].
  intros fallback. apply py_or_short_circuit; [|reflexivity].
  unfold name. cbn [globals]. rewrite Hname. reflexivity.
Qed.

(** C5: two loads in the same environment give the same namespace,
    whether the second follows the first (which has changed [sys.path])
    or starts from any other state with that environment; project,
    author and theme are the fixed strings. *)
Theorem load_is_repeatable file s :
  exists s1 t1 s2 t2,
    load file s = Ok (tt, s1, t1) /\
    load file s1 = Ok (tt, s2, t2) /\
    environ s1 = environ s /\
    globals s2 = globals s1 /\
    (forall s', environ s' = environ s ->
       exists s1' t1',
         load file s' = Ok (tt, s1', t1') /\ globals s1' = globals s1) /\
    globals s1 !! "project"
    = Some (VStr "Julia for High-Performance Scientific Computing") /\
    globals s1 !! "author" = Some (VStr "Kjartan Thor Wikfeldt") /\
    globals s1 !! "html_theme" = Some (VStr "sphinx_rtd_theme").
Proof.
  rewrite !load_run. eexists _, _, _, _.
  split; [reflexivity|]. rewrite load_run. split; [reflexivity|].
  cbn [globals environ].
  split; [reflexivity|]. split; [reflexivity|].
  split.
  - intros s' Henv. rewrite load_run, Henv. eexists _, _.
    split; reflexivity.
  - repeat split; settings_lookup.
Qed.

(** ** The directive classes *)

(** C10: every class lists 'dropdown'; [TypealongDirective] and
    [DemoDirective] have the same list, ['toggle-shown', 'dropdown'];
    the list of [ParametersDirective], ['dropdown'], has no
    'toggle-shown'. *)
Theorem directive_tag_lists file s :
  exists s' t typealong parameters demo,
    load file s = Ok (tt, s', t) /\
    globals s' !! "TypealongDirective" = Some typealong /\
    globals s' !! "ParametersDirective" = Some parameters /\
    globals s' !! "DemoDirective" = Some demo /\
    extra_classes typealong = Some ["toggle-shown"; "dropdown"] /\
    extra_classes parameters = Some ["dropdown"] /\
    extra_classes demo = Some ["toggle-shown"; "dropdown"] /\
    extra_classes typealong = extra_classes demo /\
    (forall c l, In c [typealong; parameters; demo] ->
       extra_classes c = Some l -> In "dropdown" l) /\
    (forall l, extra_classes parameters = Some l -> ~ In "toggle-shown" l).
Proof.
  rewrite load_run. eexists _, _, _, _, _. split; [reflexivity|].
  cbn [globals].
  do 3 (split; [settings_lookup|]).
  do 4 (split; [reflexivity|]).
  split.
  - intros c l [<- | [<- | [<- | []]]] [= <-]; cbn; tauto.
  - intros l [= <-]. cbn. intros [H | []]. discriminate H.
Qed.

(** Two sets are told apart by an element of one that the other lacks. *)
Lemma tag_sets_differ (x : string) (X Y : gset string) :
  bool_decide (x ∈ X) <> bool_decide (x ∈ Y) -> X <> Y.
Proof. intros Hx ->. apply Hx. reflexivity. Qed.

(** C3, as the code has it: each class has a fixed, non-empty set of
    tags; the set of [ParametersDirective] differs from the other two,
    and [TypealongDirective] and [DemoDirective] have the same set. *)
Theorem directive_tag_sets file s :
  exists s' t typealong parameters demo,
    load file s = Ok (tt, s', t) /\
    globals s' !! "DIRECTIVES" = Some (VList [typealong; parameters; demo]) /\
    globals s' !! "TypealongDirective" = Some typealong /\
    globals s' !! "ParametersDirective" = Some parameters /\
    globals s' !! "DemoDirective" = Some demo /\
    tag_set typealong = {[ "toggle-shown"; "dropdown" ]} /\
    tag_set parameters = {[ "dropdown" ]} /\
    tag_set demo = {[ "toggle-shown"; "dropdown" ]} /\
    Forall (fun c => tag_set c <> ∅) [typealong; parameters; demo] /\
    tag_set parameters <> tag_set typealong /\
    tag_set parameters <> tag_set demo /\
    tag_set typealong = tag_set demo.
Proof.
  rewrite load_run. eexists _, _, _, _, _. split; [reflexivity|].
  cbn [globals].
  split; [settings_lookup|].
  do 3 (split; [settings_lookup|]).
  unfold tag_set. cbn.
  do 3 (split; [set_solver|]).
  split; [repeat constructor; set_solver|].
  do 2 (split; [apply (tag_sets_differ "toggle-shown"); vm_compute; congruence|]).
  reflexivity.
Qed.

(** ** The hook *)

Lemma setup_run s :
  setup s
  = Ok (tt,
        {| globals := globals s; environ := environ s; sys_path := sys_path s;
           app := {| css_files := (css_files (app s) ++ ["overrides.css"])%list;
                     js_files := js_files (app s) |} |},
        [AddCssFile "overrides.css"]).
Proof. reflexivity. Qed.

(** C4, as the code has it: the hook has one effect, the registration
    of 'overrides.css'; it neither reads the environment nor registers a
    script.  The test of GITHUB_REF belongs to the load, which defines
    [html_js_files] exactly when the variable is 'refs/heads/main'. *)
Theorem setup_registers_stylesheet_only file s :
  (exists s',
     setup s = Ok (tt, s', [AddCssFile "overrides.css"]) /\
     css_files (app s') = (css_files (app s) ++ ["overrides.css"])%list /\
     js_files (app s') = js_files (app s) /\
     globals s' = globals s /\
     environ s' = environ s /\
     sys_path s' = sys_path s) /\
  (exists s' t,
     load file s = Ok (tt, s', t) /\
     In (EnvGet "GITHUB_REF") t /\
     app s' = app s /\
     (globals s' !! "html_js_files" = Some (VList [plausible_script]) <->
      environ s !! "GITHUB_REF" = Some "refs/heads/main") /\
     (globals s' !! "html_js_files" = None <->
      environ s !! "GITHUB_REF" <> Some "refs/heads/main")).
Proof.
  split.
  - rewrite setup_run. eexists. repeat split.
  - rewrite load_run. eexists _, _. split; [reflexivity|].
    split.
    { unfold loaded_effects. rewrite !in_app_iff. right. cbn. tauto. }
    split; [reflexivity|].
    cbn [globals]. rewrite loaded_js_files, <- on_main_false, <- on_main_true.
    destruct (on_main (environ s)); split; split; congruence.
Qed.

(** C7: the hook leaves the namespace of the module, the environment,
    [sys.path] and the registered scripts as they were; only the list of
    stylesheets grows.  In particular the values of the listed names, and
    the tags of any class, are the same before and after. *)
Theorem setup_frame s :
  exists s' t,
    setup s = Ok (tt, s', t) /\
    globals s' = globals s /\
    Forall (fun x => globals s' !! x = globals s !! x)
      ["project"; "author"; "extensions"; "exclude_patterns"; "html_context";
       "html_static_path"; "TypealongDirective"; "ParametersDirective";
       "DemoDirective"; "DIRECTIVES"] /\
    (forall x, extra_classes <$> globals s' !! x
               = extra_classes <$> globals s !! x) /\
    environ s' = environ s /\
    sys_path s' = sys_path s /\
    js_files (app s') = js_files (app s) /\
    css_files (app s') = (css_files (app s) ++ ["overrides.css"])%list.
Proof.
  rewrite setup_run. eexists _, _. split; [reflexivity|]. cbn.
  split; [reflexivity|]. split; [repeat constructor|]. repeat split.
Qed.

(** ** Further properties of the module *)

Lemma replicate_snoc_cons {A} n (x : A) (l : list A) :
  (replicate n x ++ x :: l = x :: replicate n x ++ l)%list.
Proof. induction n as [|n IH]; cbn; [reflexivity|]. rewrite IH. reflexivity. Qed.

Lemma on_main_ref env1 env2 :
  env1 !! "GITHUB_REF" = env2 !! "GITHUB_REF" -> on_main env1 = on_main env2.
Proof. intros H. unfold on_main, mapping_get. rewrite H. reflexivity. Qed.

Lemma loads_run n file s :
  loads (S n) file s
  = Ok (tt,
        {| globals := loaded_globals file (environ s); environ := environ s;
           sys_path := (replicate (S n) (abspath ".") ++ sys_path s)%list;
           app := app s |},
        concat (replicate (S n) (loaded_effects (environ s)))).
Proof.
  revert s. induction n as [|n IH]; intros s.
  - cbn [loads]. unfold bind. rewrite load_run. cbn. rewrite !app_nil_r.
    reflexivity.
  - change (loads (S (S n)) file s)
      with (bind (load file) (fun _ => loads (S n) file) s).
    unfold bind at 1. rewrite load_run, IH. cbn [environ sys_path app].
    rewrite replicate_snoc_cons. reflexivity.
Qed.

(** X1: every load puts [abspath('.')] at the front of [sys.path]
    again: after [n + 1] loads in a row the path has grown by [n + 1]
    copies, while the namespace is that of a single load and the
    environment and the application are untouched. *)
Theorem loads_grow_sys_path n file s :
  exists s1 t1 s' t,
    load file s = Ok (tt, s1, t1) /\
    loads (S n) file s = Ok (tt, s', t) /\
    sys_path s' = (replicate (S n) (abspath ".") ++ sys_path s)%list /\
    length (sys_path s') = S n + length (sys_path s) /\
    globals s' = globals s1 /\
    environ s' = environ s /\
    app s' = app s /\
    t = concat (replicate (S n) t1).
Proof.
  rewrite load_run, loads_run. eexists _, _, _, _.
  split; [reflexivity|]. split; [reflexivity|]. cbn [sys_path globals environ app].
  split; [reflexivity|].
  split; [rewrite length_app, length_replicate; reflexivity|].
  repeat split.
Qed.

(** X2: of the environment, a load looks at GITHUB_REF only, and once:
    two loads of the file from states that agree on that variable, and
    differ anywhere else, bind the same namespace and perform the same
    steps. *)
Theorem load_reads_github_ref_only file s1 s2 :
  environ s1 !! "GITHUB_REF" = environ s2 !! "GITHUB_REF" ->
  exists r1 r2 t,
    load file s1 = Ok (tt, r1, t) /\
    load file s2 = Ok (tt, r2, t) /\
    globals r1 = globals r2 /\
    env_reads t = ["GITHUB_REF"] /\
    environ r1 = environ s1 /\
    environ r2 = environ s2.
Proof.
  intros Href. rewrite !load_run. apply on_main_ref in Href.
  unfold loaded_globals, loaded_effects. rewrite <- Href.
  eexists _, _, _. split; [reflexivity|]. split; [reflexivity|].
  split; [reflexivity|]. split; [|split; reflexivity].
  destruct (on_main (environ s1)); vm_compute; reflexivity.
Qed.

(** X10: the last block stands on its own: it imports [os] itself, so it
    runs in any namespace; it rebinds [os], binds [html_js_files] when
    GITHUB_REF is 'refs/heads/main' and otherwise leaves that name as it
    was; every other name, the environment, [sys.path] and the
    application stay as they were. *)
Theorem analytics_frame s :
  exists s' t,
    analytics s = Ok (tt, s', t) /\
    globals s' !! "os" = Some (VExtern "os") /\
    (forall x, x <> "os" -> x <> "html_js_files" ->
       globals s' !! x = globals s !! x) /\
    (environ s !! "GITHUB_REF" = Some "refs/heads/main" ->
       globals s' !! "html_js_files" = Some (VList [plausible_script])) /\
    (environ s !! "GITHUB_REF" <> Some "refs/heads/main" ->
       globals s' !! "html_js_files" = globals s !! "html_js_files") /\
    env_reads t = ["GITHUB_REF"] /\
    environ s' = environ s /\
    sys_path s' = sys_path s /\
    app s' = app s.
Proof.
  unfold analytics, os_environ_get, import_, assign, bind, name.
  cbn [globals environ sys_path app]. rewrite lookup_insert_eq.
  cbn [globals environ sys_path app].
  fold (on_main (environ s)).
  pose proof (on_main_true (environ s)) as Hon.
  pose proof (on_main_false (environ s)) as Hoff.
  destruct (on_main (environ s)); cbn; eexists _, _; (split; [reflexivity|]);
    cbn [globals environ sys_path app].
  - split; [rewrite lookup_insert_ne by discriminate; apply lookup_insert_eq|].
    split; [intros x H1 H2; rewrite !lookup_insert_ne by congruence; reflexivity|].
    split; [intros _; apply lookup_insert_eq|].
    split; [intros Hne; apply Hoff in Hne; discriminate Hne|]. repeat split.
  - split; [apply lookup_insert_eq|].
    split; [intros x H1 H2; rewrite !lookup_insert_ne by congruence; reflexivity|].
    split; [intros Href; apply Hon in Href; discriminate Href|].
    split; [intros _; rewrite lookup_insert_ne by discriminate; reflexivity|].
    repeat split.
Qed.

(** One step of a run in a namespace that is not known: look the name
    up past the bindings made so far. *)
Ltac run_lookup :=
  cbn [from_import String.append]; unfold bind, assign, name, ret;
  cbn [globals environ sys_path app];
  repeat
    (first [ rewrite lookup_insert_eq
           | rewrite lookup_insert_ne by discriminate ];
     cbn [globals environ sys_path app]).


(** X4: a repository name that counts as false, such as the blank
    string, makes [html_context] name the directory that holds the file:
    [github_repo] is [basename(dirname(realpath(__file__)))]. *)
Theorem html_output_detects_repo s p user repo version path file :
  globals s !! "project" = Some p ->
  globals s !! "github_user" = Some user ->
  globals s !! "github_repo_name" = Some repo ->
  truthy repo = false ->
  globals s !! "__file__" = Some (VStr file) ->
  globals s !! "github_version" = Some version ->
  globals s !! "conf_py_path" = Some path ->
  exists s' t,
    html_output s = Ok (tt, s', t) /\
    globals s' !! "html_context"
    = Some (VDict [("display_github", VBool true);
                   ("github_user", user);
                   ("github_repo", VStr (basename (dirname (realpath file))));
                   ("github_version", version);
                   ("conf_py_path", path)]) /\
    globals s' !! "github_repo_name" = Some repo.
Proof.
  intros Hp Hu Hr Ht Hf Hv Hc.
  unfold html_output, py_or, dirname_of_file, as_str.
  run_lookup. rewrite Hp. run_lookup. rewrite Hu. run_lookup.
  rewrite Hr. run_lookup. rewrite Ht. run_lookup. rewrite Hf. run_lookup.
  rewrite Hv. run_lookup. rewrite Hc. run_lookup.
  eexists _, _. split; [reflexivity|]. run_lookup. split; [reflexivity|assumption].
Qed.

(** X5: the HTML options cannot come before the project information:
    when they run to the end, the five names they read were bound
    before. *)
Theorem html_output_needs_metadata s r :
  html_output s = Ok r ->
  Forall (fun x => is_Some (globals s !! x))
    ["project"; "github_user"; "github_repo_name"; "github_version";
     "conf_py_path"].
Proof.
  unfold html_output, py_or, dirname_of_file, as_str, raise.
  run_lookup.
  destruct (globals s !! "project") eqn:Hp; [|discriminate]. run_lookup.
  destruct (globals s !! "github_user") eqn:Hu; [|discriminate]. run_lookup.
  destruct (globals s !! "github_repo_name") as [repo|] eqn:Hr;
    [|discriminate].
  run_lookup.
  destruct (truthy repo); run_lookup.
  - destruct (globals s !! "github_version") eqn:Hv; [|discriminate].
    run_lookup.
    destruct (globals s !! "conf_py_path") eqn:Hc; [|discriminate].
    intros _. repeat constructor; eauto.
  - destruct (globals s !! "__file__") as [f|] eqn:Hf; [|discriminate].
    run_lookup. destruct f; try discriminate. run_lookup.
    destruct (globals s !! "github_version") eqn:Hv; [|discriminate].
    run_lookup.
    destruct (globals s !! "conf_py_path") eqn:Hc; [|discriminate].
    intros _. repeat constructor; eauto.
Qed.


(** X7: the environment decides about [html_js_files] and about nothing
    else: loads in any two environments agree on every other name. *)
Theorem load_env_decides_js_files_only file s1 s2 :
  exists r1 t1 r2 t2,
    load file s1 = Ok (tt, r1, t1) /\
    load file s2 = Ok (tt, r2, t2) /\
    forall x, x <> "html_js_files" -> globals r1 !! x = globals r2 !! x.
Proof.
  rewrite !load_run. eexists _, _, _, _.
  split; [reflexivity|]. split; [reflexivity|].
  intros x Hx. cbn [globals]. rewrite !loaded_settings by exact Hx.
  reflexivity.
Qed.

(** X8: [DIRECTIVES] lists three classes, no two the same; each derives
    from the imported [_BaseCRDirective] and is bound in the namespace
    under its own class name. *)
Theorem directives_are_distinct_classes file s :
  exists s' t base classes,
    load file s = Ok (tt, s', t) /\
    globals s' !! "_BaseCRDirective" = Some base /\
    globals s' !! "DIRECTIVES" = Some (VList classes) /\
    length classes = 3 /\
    NoDup classes /\
    Forall (fun c => exists n body,
                       c = VClass n base body /\ globals s' !! n = Some c)
      classes.
Proof.
  rewrite load_run. eexists _, _, _, _. split; [reflexivity|].
  cbn [globals]. do 2 (split; [settings_lookup|]).
  split; [reflexivity|]. split.
  - repeat (apply NoDup_cons; split;
            [rewrite ?elem_of_cons, elem_of_nil; intuition discriminate|]).
    apply NoDup_nil. exact I.
  - repeat constructor; eexists _, _; (split; [reflexivity|settings_lookup]).
Qed.


End Conf.


(** ** Concrete runs *)

(** The working directory and the links of the file system do not
    matter below; the path functions are taken to return their
    argument. *)

Lemma no_script_off_main_witness :
  exists s' t,
    load id id id id "/lesson/content/conf.py"
      (builder_state {[ "GITHUB_REF" := "refs/heads/dev" ]})
    = Ok (tt, s', t) /\
    globals s' !! "html_js_files" = None.
Proof.
  apply (no_script_off_main id id id id "/lesson/content/conf.py"
           (builder_state {[ "GITHUB_REF" := "refs/heads/dev" ]})).
  right. exists "refs/heads/dev". split; [vm_compute; reflexivity|discriminate].
Defined.

Lemma script_on_main_witness :
  exists s' t,
    load id id id id "/lesson/content/conf.py"
      (builder_state {[ "GITHUB_REF" := "refs/heads/main" ]})
    = Ok (tt, s', t) /\
    globals s' !! "html_js_files"
    = Some (VList
              [VTuple
                 [VStr "https://plausible.io/js/script.js";
                  VDict [("data-domain", VStr "enccs.github.io/julia-for-hpc");
                         ("defer", VStr "defer")]]]).
Proof.
  apply (script_on_main id id id id "/lesson/content/conf.py"
           (builder_state {[ "GITHUB_REF" := "refs/heads/main" ]})).
  vm_compute. reflexivity.
Defined.

Lemma absent_ref_loads_witness :
  mapping_get (environ (builder_state ∅)) "GITHUB_REF" "" = "" /\
  exists s' t,
    load id id id id "/lesson/content/conf.py" (builder_state ∅)
    = Ok (tt, s', t) /\
    In (EnvGet "GITHUB_REF") t /\
    globals s' !! "html_js_files" = None.
Proof.
  apply (absent_ref_loads id id id id "/lesson/content/conf.py"
           (builder_state ∅)).
  vm_compute. reflexivity.
Defined.

(** Values that are close to 'refs/heads/main' but not equal to it do not
    bring the script in. *)
Example near_misses_load_no_script :
  Forall
    (fun r =>
       exists s' t,
         load id id id id "/lesson/content/conf.py"
           (builder_state {[ "GITHUB_REF" := r ]})
         = Ok (tt, s', t) /\
         globals s' !! "html_js_files" = None)
    [""; "main"; "refs/heads/mai"; "refs/heads/main/"; "refs/heads/main ";
     " refs/heads/main"; "Refs/Heads/Main"; "REFS/HEADS/MAIN";
     "refs/heads/master"; "refs/tags/main"].
Proof.
  repeat constructor;
    (rewrite load_run; eexists _, _; split;
     [reflexivity | vm_compute; reflexivity]).
Qed.

(** C3, against the claim: in a load, [TypealongDirective] and
    [DemoDirective] have the same set of tags, so the three sets are not
    pairwise different. *)
Lemma typealong_demo_same_tag_set :
  exists s' t typealong parameters demo,
    load id id id id "/lesson/content/conf.py" (builder_state ∅)
    = Ok (tt, s', t) /\
    globals s' !! "DIRECTIVES" = Some (VList [typealong; parameters; demo]) /\
    tag_set typealong = tag_set demo /\
    ~ NoDup [tag_set typealong; tag_set parameters; tag_set demo].
Proof.
  rewrite load_run. eexists _, _, _, _, _. split; [reflexivity|].
  split; [vm_compute; reflexivity|].
  split; [reflexivity|].
  intros Hnd. apply NoDup_cons_1_1 in Hnd.
  apply Hnd, list_elem_of_further, list_elem_of_here.
Qed.

(** C4, against the claim: with GITHUB_REF equal to 'refs/heads/main',
    the hook run after the load registers the stylesheet and nothing
    else; it does not consult the environment and the application has no
    script. *)
Lemma setup_on_main_adds_no_script :
  exists s1 t1 s2 t2,
    load id id id id "/lesson/content/conf.py"
      (builder_state {[ "GITHUB_REF" := "refs/heads/main" ]})
    = Ok (tt, s1, t1) /\
    environ s1 !! "GITHUB_REF" = Some "refs/heads/main" /\
    setup s1 = Ok (tt, s2, t2) /\
    t2 = [AddCssFile "overrides.css"] /\
    ~ In (EnvGet "GITHUB_REF") t2 /\
    css_files (app s2) = ["overrides.css"] /\
    js_files (app s2) = [] /\
    ~ In plausible_script (js_files (app s2)).
Proof.
  rewrite load_run. eexists _, _, _, _. split; [reflexivity|].
  split; [vm_compute; reflexivity|].
  rewrite setup_run. split; [reflexivity|]. split; [reflexivity|].
  split; [intros [H | []]; discriminate H|].
  cbn. repeat split. intros [].
Qed.

(** ** Concrete runs of the further properties *)

Lemma load_reads_github_ref_only_witness :
  exists r1 r2 t,
    load id id id id "/lesson/content/conf.py"
      (builder_state (<["HOME" := "/home/docs"]>
                        {[ "GITHUB_REF" := "refs/heads/dev" ]}))
    = Ok (tt, r1, t) /\
    load id id id id "/lesson/content/conf.py"
      (builder_state {[ "GITHUB_REF" := "refs/heads/dev" ]})
    = Ok (tt, r2, t) /\
    globals r1 = globals r2 /\
    env_reads t = ["GITHUB_REF"] /\
    environ r1
    = environ (builder_state (<["HOME" := "/home/docs"]>
                                {[ "GITHUB_REF" := "refs/heads/dev" ]})) /\
    environ r2
    = environ (builder_state {[ "GITHUB_REF" := "refs/heads/dev" ]}).
Proof.
  apply (load_reads_github_ref_only id id id id "/lesson/content/conf.py"
           (builder_state (<["HOME" := "/home/docs"]>
                             {[ "GITHUB_REF" := "refs/heads/dev" ]}))
           (builder_state {[ "GITHUB_REF" := "refs/heads/dev" ]})).
  vm_compute. reflexivity.
Defined.


Lemma html_output_detects_repo_witness :
  exists s' t,
    html_output id (fun _ => "/lesson/content") (fun _ => "content")
      (metadata_state "")
    = Ok (tt, s', t) /\
    globals s' !! "html_context"
    = Some (VDict [("display_github", VBool true);
                   ("github_user", VStr "someone");
                   ("github_repo", VStr "content");
                   ("github_version", VStr "main");
                   ("conf_py_path", VStr "/docs/")]) /\
    globals s' !! "github_repo_name" = Some (VStr "").
Proof.
  apply (html_output_detects_repo id (fun _ => "/lesson/content")
           (fun _ => "content") (metadata_state "")
           (VStr "A lesson") (VStr "someone") (VStr "") (VStr "main")
           (VStr "/docs/") "/lesson/content/conf.py");
    vm_compute; reflexivity.
Defined.

Lemma html_output_needs_metadata_witness :
  Forall (fun x => is_Some (globals (metadata_state "lesson") !! x))
    ["project"; "github_user"; "github_repo_name"; "github_version";
     "conf_py_path"].
Proof.
  eapply (html_output_needs_metadata id id id (metadata_state "lesson")).
  vm_compute. reflexivity.
Defined.

